(** * PlanetPosition: a shallow embedding of [planetPosition.js]

    The JavaScript source computes approximate heliocentric positions of the
    eight major planets from JPL's Keplerian elements.  Its numbers are IEEE 754
    binary64 values, modelled here by Rocq's primitive [float]; the operators
    [+ - * /], [Math.abs], [Math.sqrt] and the comparisons are the primitive
    ones, [%] and [Math.round] are computed exactly through [Prim2SF], and
    [Math.sin] / [Math.cos], which ECMAScript leaves implementation-approximated,
    are the two fields of a [Libm] record every definition that calls them takes
    as a parameter.  [throw] is an explicit completion, the unbounded [while]
    loop of [keplersEq] runs on fuel. *)

From Stdlib Require Import ZArith List String Floats Bool Lia.
From stdpp Require Import gmap strings.

Set Warnings "-inexact-float,-register-all".

Local Open Scope float_scope.

(** ** JavaScript values, property lookup and completions *)

Module JS.

(** The values an argument of [getPos] can be.  An object is its own
    properties and its prototype; the end of the chain ([None]) stands for
    [Object.prototype], which has no property named "undefined". *)
Inductive value : Type :=
  | VUndefined
  | VNull
  | VBool (b : bool)
  | VNumber (x : float)
  | VString (s : string)
  | VObject (own : gmap string value) (proto : option value).

(** [typeof v] *)
Definition typeof (v : value) : string :=
  match v with
  | VUndefined => "undefined"
  | VNull => "object"
  | VBool _ => "boolean"
  | VNumber _ => "number"
  | VString _ => "string"
  | VObject _ _ => "object"
  end.

(** What the source can throw: [Error(msg)], and the engine's [TypeError]
    when a property of [undefined] or [null] is read. *)
Inductive exn : Type :=
  | Error (msg : string)
  | TypeError.

(** The outcome of running a piece of the source on fuel. *)
Inductive completion (A : Type) : Type :=
  | Normal (a : A)
  | Throw (e : exn)
  | OutOfFuel.
Arguments Normal {A} a.
Arguments Throw {A} e.
Arguments OutOfFuel {A}.

#[export] Instance completion_ret : MRet completion := fun A a => Normal a.

#[export] Instance completion_bind : MBind completion := fun A B k c =>
  match c with
  | Normal a => k a
  | Throw e => Throw e
  | OutOfFuel => OutOfFuel
  end.

(** [ToString(undefined)], the key the source's [options[unix_time]] reads
    while [unix_time] is still unassigned. *)
Definition undefined_key : string := "undefined".

(** [o[k]] on an object: own properties first, then the prototype chain.
    On a primitive other than [null] and [undefined] the lookup goes to the
    wrapper's prototype, which has no such property. *)
Fixpoint get_property (o : value) (k : string) : value :=
  match o with
  | VObject own proto =>
      match own !! k with
      | Some v => v
      | None =>
          match proto with
          | Some p => get_property p k
          | None => VUndefined
          end
      end
  | _ => VUndefined
  end.

(** [o[k]] as an expression: reading a property of [undefined] or [null]
    throws. *)
Definition get (o : value) (k : string) : completion value :=
  match o with
  | VUndefined | VNull => Throw TypeError
  | _ => Normal (get_property o k)
  end.

(** [v === undefined] *)
Definition is_undefined (v : value) : bool :=
  match v with
  | VUndefined => true
  | _ => false
  end.

(** An integer as a Number; exact for magnitudes up to 2^53. *)
Definition of_Z (n : Z) : float :=
  match n with
  | Z0 => zero
  | Zpos p => of_uint63 (Uint63.of_Z (Zpos p))
  | Zneg p => - of_uint63 (Uint63.of_Z (Zpos p))
  end.

(** [Math.PI] *)
Definition Math_PI : float := 0x1.921fb54442d18p+1.

(** [Math.round x]: the integral Number closest to [x], ties towards
    +infinity; [x] itself when it is NaN, a zero, an infinity or already
    integral; a zero result keeps the sign of [x]. *)
Definition Math_round (x : float) : float :=
  match Prim2SF x with
  | S754_finite s m e =>
      if (0 <=? e)%Z then x
      else
        let sm := if s then Zneg m else Zpos m in
        let n := ((2 * sm + 2 ^ (- e)) / 2 ^ (1 - e))%Z in
        if (n =? 0)%Z then (if s then neg_zero else zero) else of_Z n
  | _ => x
  end.

(** [x % y]: the remainder of the truncating division, exact, with the
    sign of the dividend. *)
Definition rem (x y : float) : float :=
  match Prim2SF x, Prim2SF y with
  | S754_nan, _ | _, S754_nan => nan
  | S754_infinity _, _ => nan
  | _, S754_zero _ => nan
  | S754_zero _, _ => x
  | S754_finite _ _ _, S754_infinity _ => x
  | S754_finite sx mx ex, S754_finite _ my ey =>
      let e := Z.min ex ey in
      let r := Z.rem (Zpos mx * 2 ^ (ex - e)) (Zpos my * 2 ^ (ey - e)) in
      let f := Z.ldexp (of_Z r) e in
      if sx then - f else f
  end.

(** The integer a Number is, when it is one ([-0] is [0]). *)
Definition to_integer (x : float) : option Z :=
  match Prim2SF x with
  | S754_zero _ => Some 0%Z
  | S754_finite s m e =>
      let n :=
        if (0 <=? e)%Z then Some (Zpos m * 2 ^ e)%Z
        else if (Zpos m mod 2 ^ (- e) =? 0)%Z then Some (Zpos m / 2 ^ (- e))%Z
        else None in
      if s then option_map Z.opp n else n
  | _ => None
  end.

(** [arr[k]] for an array and a Number key: the element when [k] is an
    integer from [0] to [length - 1], [undefined] ([None]) otherwise. *)
Definition array_get {A} (arr : list A) (k : float) : option A :=
  match to_integer k with
  | Some n =>
      if (0 <=? n)%Z && (n <? Z.of_nat (length arr))%Z
      then nth_error arr (Z.to_nat n)
      else None
  | None => None
  end.

(** [row[i]] used as a Number: a hole reads as [undefined], which arithmetic
    turns into NaN. *)
Definition number_at (row : list float) (i : nat) : float := nth i row nan.

End JS.


(** ** The source: [var planetPosition = { keplersEq, getJulianFromUnix, getPos }] *)

Module planetPosition.
Import JS.

(** [Math.sin] and [Math.cos] of the engine the source runs on. *)
Record Libm : Type := {
  Math_sin : float -> float;
  Math_cos : float -> float
}.

(** The three locals [unix_time], [icrf], [circular] of [getPos]. *)
Record toggles : Type := {
  unix_time : bool;
  icrf : bool;
  circular : bool
}.

(** [keplersEq], lines 18-30: the [while] loop, one unit of fuel per
    iteration.  The loop has no cap of its own: [OutOfFuel] only says the
    fuel given was not enough. *)
Fixpoint keplersEq_loop (libm : Libm) (fuel : nat) (x c y diff : float)
  : completion float :=
  let tol := 1.0e-6 in
  if tol <? abs diff then
    match fuel with
    | O => OutOfFuel
    | S fuel' =>
        let d_x := x - (y - c * Math_sin libm y) in
        let d_y := d_x / (1 - c * Math_cos libm y) in
        keplersEq_loop libm fuel' x c (y + d_y) d_y
    end
  else Normal y.

Definition keplersEq (libm : Libm) (fuel : nat) (x c : float) : completion float :=
  let diff := 100000 in
  let y := x + Math_sin libm x in
  keplersEq_loop libm fuel x c y diff.

(** [getJulianFromUnix], lines 40-42. *)
Definition getJulianFromUnix (unixMillisecs : float) : float :=
  unixMillisecs / 86400000 + 2440587.5.

(** Lines 69-96 of [getPos].  The three lookups use the local variable as
    the key while it is still [undefined], so each reads the property named
    "undefined". *)
Definition read_toggle (options : value) : completion bool :=
  v ← get options undefined_key;
  mret (negb (is_undefined v)).

Definition readOptions (options : value) : completion toggles :=
  if is_undefined options then
    mret {| unix_time := false; icrf := false; circular := false |}
  else
    unix_time ← read_toggle options;
    icrf ← read_toggle options;
    circular ← read_toggle options;
    mret {| unix_time := unix_time; icrf := icrf; circular := circular |}.

(** Lines 99-112: the Keplerian parameters and their derivatives. *)
Definition parameters : list (list float) :=
  [ [0.38709927; 0.20563593; 7.00497902; 252.25032350; 77.45779628; 48.33076593; 0.00000037;
     0.00001906; -0.00594749; 149472.67411175; 0.16047689; -0.12534081];
    [0.72333566; 0.00677672;
     3.39467605; 181.97909950; 131.60246718; 76.67984255; 0.00000390; -0.00004107; -0.00078890;
     58517.81538729; 0.00268329; -0.27769418];
    [1.00000261; 0.01671123; -0.00001531; 100.46457166;
     102.93768193; 0.0; 0.00000562; -0.00004392; -0.01294668; 35999.37244981; 0.32327364; 0.0];
    [1.52371034; 0.09339410; 1.84969142; -4.55343205; -23.94362959; 49.55953891; 0.00001847;
     0.00007882; -0.00813131; 19140.30268499; 0.44441088; -0.29257343];
    [5.20288700; 0.04838624;
     1.30439695; 34.39644051; 14.72847983; 100.47390909; -0.00011607; -0.00013253; -0.00183714;
     3034.74612775; 0.21252668; 0.20469106];
    [9.53667594; 0.05386179; 2.48599187; 49.95424423;
     92.59887831; 113.66242448; -0.00125060; -0.00050991; 0.00193609; 1222.49362201; -0.41897216;
     -0.28867794];
    [19.18916464; 0.04725744; 0.77263783; 313.23810451; 170.95427630; 74.01692503;
     -0.00196176; -0.00004397; -0.00242939; 428.48202785; 0.40805281; 0.04240589];
    [30.06992276;
     0.00859048; 1.77004347; -55.12002969; 44.96476227; 131.78422574; 0.00026291; 0.00005105;
     0.00035372; 218.45945325; -0.32241464; -0.00508664] ].

(** Line 113. *)
Definition planet_names : list string :=
  [ "mercury"; "venus"; "earth"; "mars"; "jupiter"; "saturn"; "uranus"; "neptune" ]%string.

(** The messages of the three kinds of [throw Error(...)], lines 119, 122,
    135 and 139. *)
Definition msg_fraction : string := "The planet index cannot be a fraction!".
Definition msg_range : string := "The planet is out of range! It should be 0-indexed.".
Definition msg_name : string := "The planet argument has to be the name of an actual planet!".
Definition msg_type : string := "The planet argument has to be an integer or a string!".

(** Lines 127-133: the [for] loop over [planet_names], from index [i]. *)
Fixpoint find_name (planet : string) (names : list string) (i : nat) : option nat :=
  match names with
  | [] => None
  | name :: rest =>
      if String.eqb planet name then Some i else find_name planet rest (S i)
  end.

(** Lines 115-140: from the [planet] argument to [planet_idx]. *)
Definition resolvePlanet (planet : value) : completion float :=
  match planet with
  | VNumber p =>
      let planet_idx := Math_round p in
      if 0.0001 <? abs (planet_idx - p) then Throw (Error msg_fraction)
      else if (planet_idx <? 0) || (8 <=? planet_idx) then Throw (Error msg_range)
      else Normal planet_idx
  | VString s =>
      match find_name s planet_names 0 with
      | Some i => Normal (of_Z (Z.of_nat i))
      | None => Throw (Error msg_name)
      end
  | _ => Throw (Error msg_type)
  end.

(** Lines 143-150: the centuries since 2000.  (The source also leaves the
    Julian date in an undeclared variable [mjd]; nothing reads it back.) *)
Definition centuries (unix_time : bool) (t : float) : float :=
  if unix_time then
    let mjd := getJulianFromUnix (t * 1000) in
    (mjd - 2451544.5) / 36525
  else
    (t - 2000) / 100.

(** Lines 153-158: an element at time [T], [parameters[planet_idx][i] +
    T*parameters[planet_idx][i+6]], and the conversion [deg*Math.PI/180]
    applied to the four angles. *)
Definition element (row : list float) (T : float) (i : nat) : float :=
  number_at row i + T * number_at row (i + 6).

Definition radians (deg : float) : float := deg * Math_PI / 180.

(** Line 162: [M = ((M + Math.PI) % (2*Math.PI)) - Math.PI]. *)
Definition wrap (M : float) : float :=
  rem (M + Math_PI) (2 * Math_PI) - Math_PI.

(** Lines 156-157 and 161-162: the mean anomaly [getPos] goes on with. *)
Definition meanAnomaly (row : list float) (T : float) : float :=
  let l := radians (element row T 3) in
  let w_line := radians (element row T 4) in
  let M := l - w_line in
  wrap M.

(** Lines 166-171. *)
Definition eccentricAnomaly (libm : Libm) (fuel : nat) (circular : bool) (M e : float)
  : completion float :=
  if negb circular then keplersEq libm fuel M e else Normal M.

(** Lines 186-191: the array [pos_icrf] built from [pos_ecl]. *)
Definition to_icrf (libm : Libm) (pos_ecl : list float) : list float :=
  let eps_rad := 23.43928 * Math_PI / 180 in
  [ number_at pos_ecl 0;
    Math_cos libm eps_rad * number_at pos_ecl 1 - Math_sin libm eps_rad * number_at pos_ecl 2;
    Math_sin libm eps_rad * number_at pos_ecl 1 + Math_cos libm eps_rad * number_at pos_ecl 2 ].

(** Lines 173-181: the position in the plane of the ellipse, then in the
    ecliptic plane. *)
Definition ecliptic (libm : Libm) (a e I w om E : float) : list float :=
  let sin := Math_sin libm in
  let cos := Math_cos libm in
  let x := a * (cos E - e) in
  let y := a * sqrt (1 - e * e) * sin E in
  [ (cos w * cos om - sin w * sin om * cos I) * x
      + (- sin w * cos om - cos w * sin om * cos I) * y;
    (cos w * sin om + sin w * cos om * cos I) * x
      + (- sin w * sin om + cos w * cos om * cos I) * y;
    sin w * sin I * x + cos w * sin I * y ].

(** Lines 153-192, for the row of the planet and the centuries [T]. *)
Definition orbit (libm : Libm) (fuel : nat) (tg : toggles) (row : list float) (T : float)
  : completion (list float) :=
  let a := element row T 0 in
  let e := element row T 1 in
  let I := radians (element row T 2) in
  let w_line := radians (element row T 4) in
  let om := radians (element row T 5) in
  let w := w_line - om in
  let M := meanAnomaly row T in
  E ← eccentricAnomaly libm fuel (circular tg) M e;
  let pos_ecl := ecliptic libm a e I w om E in
  if negb (icrf tg) then mret pos_ecl else mret (to_icrf libm pos_ecl).

(** [parameters[planet_idx]] followed by an index: reading an element of
    [undefined] throws. *)
Definition planet_row (planet_idx : float) : completion (list float) :=
  match array_get parameters planet_idx with
  | Some row => Normal row
  | None => Throw TypeError
  end.

(** Lines 143-192, with the toggles and [planet_idx] settled. *)
Definition locate (libm : Libm) (fuel : nat) (tg : toggles) (planet_idx t : float)
  : completion (list float) :=
  let T := centuries (unix_time tg) t in
  row ← planet_row planet_idx;
  orbit libm fuel tg row T.

(** [getPos], lines 66-193. *)
Definition getPos (libm : Libm) (fuel : nat) (planet : value) (t : float) (options : value)
  : completion (list float) :=
  tg ← readOptions options;
  planet_idx ← resolvePlanet planet;
  locate libm fuel tg planet_idx t.

(** A crude polynomial stand-in for the engine's [Math.sin] and [Math.cos],
    used only to run the definitions on examples. *)
Definition poly_libm : Libm :=
  {| Math_sin := fun x => x - x * x * x / 6;
     Math_cos := fun x => 1 - x * x / 2 |}.

(** The options objects of the examples. *)
Definition object (own : gmap string value) : value := VObject own None.

(** [{icrf:true}], [{icrf:false}] and [{undefined:undefined}]. *)
Definition options_icrf_true : value := object {[ "icrf"%string := VBool true ]}.
Definition options_icrf_false : value := object {[ "icrf"%string := VBool false ]}.
Definition options_undefined_undefined : value := object {[ undefined_key := VUndefined ]}.

(** [{icrf:true, circular:true}], from the README. *)
Definition options_icrf_circular : value :=
  object {[ "icrf"%string := VBool true; "circular"%string := VBool true ]}.

(** An object owns a property. *)
Definition owns (o : value) (k : string) : Prop :=
  match o with
  | VObject own _ => is_Some (own !! k)
  | _ => False
  end.

Definition all_off : toggles := {| unix_time := false; icrf := false; circular := false |}.
Definition all_on : toggles := {| unix_time := true; icrf := true; circular := true |}.

(** The error kinds of the specification, as sets of thrown values. *)
Definition InvalidPlanetIndex (e : exn) : Prop :=
  e = Error msg_fraction \/ e = Error msg_range.
Definition UnknownPlanetName (e : exn) : Prop := e = Error msg_name.
Definition InvalidPlanetType (e : exn) : Prop := e = Error msg_type.

End planetPosition.

(** * Properties *)

Import JS planetPosition.

(** ** The options block *)

Section Options.

Lemma readOptions_absent : readOptions VUndefined = Normal all_off.
Proof. reflexivity. Qed.

Lemma readOptions_null : readOptions VNull = Throw TypeError.
Proof. reflexivity. Qed.

(** Every value but [undefined] and [null] goes through the three lookups,
    and the three read one and the same property. *)
Lemma readOptions_lookup (options : value) :
  options <> VUndefined -> options <> VNull ->
  readOptions options =
    Normal (if is_undefined (get_property options undefined_key)
            then all_off else all_on).
Proof.
  intros Hu Hn.
  destruct options as [| |b|x|s|own proto]; try congruence;
    unfold readOptions, read_toggle;
    cbn [is_undefined get mbind completion_bind mret completion_ret];
    try reflexivity.
  destruct (is_undefined (get_property (VObject own proto) undefined_key)); reflexivity.
Qed.

Lemma readOptions_total (options : value) :
  options <> VNull -> exists tg, readOptions options = Normal tg.
Proof.
  intros Hn. destruct options; try congruence;
    solve [ eexists; apply readOptions_absent
          | rewrite readOptions_lookup by congruence; eauto ].
Qed.

(** The options block ends in toggles or in the [TypeError] of [null]. *)
Lemma readOptions_cases (options : value) :
  readOptions options = Throw TypeError \/ exists tg, readOptions options = Normal tg.
Proof.
  destruct options; try (right; apply readOptions_total; congruence).
  left. apply readOptions_null.
Qed.

(** The toggles are all off or all on: no call sets one without the
    others. *)
Lemma readOptions_all_or_nothing (options : value) (tg : toggles) :
  readOptions options = Normal tg -> tg = all_off \/ tg = all_on.
Proof.
  destruct options;
    try (rewrite readOptions_lookup by congruence;
         destruct (is_undefined _); intros [= <-]; auto).
  - rewrite readOptions_absent. intros [= <-]. auto.
  - rewrite readOptions_null. discriminate.
Qed.

End Options.

(** ** How [getPos] uses its options *)

Section GetPosOptions.

Context (libm : Libm) (fuel : nat).

Lemma getPos_toggles (planet : value) (t : float) (options : value) (tg : toggles) :
  readOptions options = Normal tg ->
  getPos libm fuel planet t options =
    (planet_idx ← resolvePlanet planet; locate libm fuel tg planet_idx t).
Proof. intros H. unfold getPos. rewrite H. reflexivity. Qed.

Lemma getPos_null_options (planet : value) (t : float) :
  getPos libm fuel planet t VNull = Throw TypeError.
Proof. reflexivity. Qed.

(** Two option values that read to the same toggles give the same call. *)
Lemma getPos_same_toggles (planet : value) (t : float) (o1 o2 : value) :
  readOptions o1 = readOptions o2 ->
  getPos libm fuel planet t o1 = getPos libm fuel planet t o2.
Proof. intros H. unfold getPos. rewrite H. reflexivity. Qed.

(** With the [icrf] toggle on, the array returned is [to_icrf] of the one
    returned with the toggle off. *)
Lemma orbit_icrf (u c : bool) (row : list float) (T : float) :
  orbit libm fuel {| unix_time := u; icrf := true; circular := c |} row T =
    (pos_ecl ← orbit libm fuel {| unix_time := u; icrf := false; circular := c |} row T;
     mret (to_icrf libm pos_ecl)).
Proof.
  unfold orbit. cbn [icrf circular negb].
  destruct (eccentricAnomaly libm fuel c _ _); reflexivity.
Qed.

(** [to_icrf] keeps the first coordinate and mixes the other two with the
    cosine and sine of the obliquity. *)
Lemma to_icrf_coordinates (x y z : float) :
  let eps := 23.43928 * Math_PI / 180 in
  to_icrf libm [x; y; z] =
    [ x;
      Math_cos libm eps * y - Math_sin libm eps * z;
      Math_sin libm eps * y + Math_cos libm eps * z ].
Proof. reflexivity. Qed.

(** C1.  The call with [{icrf:true}] returns what the call with
    [{icrf:false}] returns, for every planet argument, every time and every
    [Math.sin] and [Math.cos]: neither object has a property named
    "undefined", so the [icrf] toggle stays off in both and [to_icrf] is
    never applied. *)
Theorem getPos_icrf_true_is_ecliptic (planet : value) (t : float) :
  readOptions options_icrf_true = Normal all_off /\
  getPos libm fuel planet t options_icrf_true =
    getPos libm fuel planet t options_icrf_false /\
  getPos libm fuel planet t options_icrf_true =
    (planet_idx ← resolvePlanet planet; locate libm fuel all_off planet_idx t).
Proof.
  assert (Ht : readOptions options_icrf_true = Normal all_off) by reflexivity.
  assert (Hf : readOptions options_icrf_false = Normal all_off) by reflexivity.
  split; [exact Ht|]. split.
  - apply getPos_same_toggles. now rewrite Ht, Hf.
  - now apply getPos_toggles.
Qed.

(** C2, as amended.  For an options value other than [null], what decides
    the toggles is the value read from the property named "undefined", own
    or inherited: when it is [undefined] the call is the call without
    options, whatever [circular], [unix_time] and [icrf] hold; when it is
    anything else the three toggles are on together. *)
Theorem getPos_options_undefined_key (planet : value) (t : float) (options : value) :
  options <> VNull ->
  (get_property options undefined_key = VUndefined ->
     getPos libm fuel planet t options = getPos libm fuel planet t VUndefined) /\
  (get_property options undefined_key <> VUndefined ->
     readOptions options = Normal all_on /\
     getPos libm fuel planet t options =
       (planet_idx ← resolvePlanet planet; locate libm fuel all_on planet_idx t)).
Proof.
  intros Hn. split.
  - intros Hu. apply getPos_same_toggles.
    destruct options; try congruence; try reflexivity;
      rewrite readOptions_lookup by congruence; rewrite Hu; reflexivity.
  - intros Hd.
    assert (Hon : readOptions options = Normal all_on).
    { destruct options; try congruence; try (cbn in Hd; congruence).
      rewrite readOptions_lookup by congruence.
      destruct (get_property _ _); try congruence; reflexivity. }
    split; [exact Hon|]. now apply getPos_toggles.
Qed.

End GetPosOptions.

(** C2: an object that owns a property named "undefined" whose value is
    [undefined] leaves the three toggles off. *)
Lemma readOptions_owned_undefined_stays_off :
  owns options_undefined_undefined undefined_key /\
  readOptions options_undefined_undefined = Normal all_off /\
  all_off <> all_on.
Proof.
  split; [|split].
  - cbn. eexists. reflexivity.
  - reflexivity.
  - discriminate.
Qed.

(** A run of [getPos_options_undefined_key]: the README's
    [getPos("earth", 2100.5, {icrf:true, circular:true})]. *)
Lemma getPos_options_undefined_key_witness :
  options_icrf_circular <> VNull /\
  get_property options_icrf_circular undefined_key = VUndefined /\
  getPos poly_libm 50 (VString "earth") 2100.5 options_icrf_circular =
    getPos poly_libm 50 (VString "earth") 2100.5 VUndefined.
Proof.
  split; [discriminate|]. split; [reflexivity|].
  apply (getPos_options_undefined_key poly_libm 50 (VString "earth") 2100.5
           options_icrf_circular).
  - discriminate.
  - reflexivity.
Defined.

(** ** From the [planet] argument to the row of the table *)

Section Planet.

(** The eight indices and the eight names resolve to the same
    [planet_idx]. *)
Lemma resolvePlanet_index_name (i : nat) (name : string) :
  nth_error planet_names i = Some name ->
  resolvePlanet (VNumber (of_Z (Z.of_nat i))) = Normal (of_Z (Z.of_nat i)) /\
  resolvePlanet (VString name) = Normal (of_Z (Z.of_nat i)).
Proof.
  intros H.
  do 8 (destruct i as [|i]; [injection H as <-; split; vm_compute; reflexivity|]).
  destruct i; discriminate H.
Qed.

(** Each of them has a row. *)
Lemma planet_row_index (i : nat) (name : string) :
  nth_error planet_names i = Some name ->
  exists row, nth_error parameters i = Some row /\
              planet_row (of_Z (Z.of_nat i)) = Normal row.
Proof.
  intros H.
  do 8 (destruct i as [|i]; [eexists; split; vm_compute; reflexivity|]).
  destruct i; discriminate H.
Qed.

(** [find_name] returns the position of the name in the list it scans. *)
Lemma find_name_Some (s : string) (names : list string) (i k : nat) :
  find_name s names i = Some k ->
  i <= k /\ nth_error names (k - i) = Some s.
Proof.
  revert i. induction names as [|name rest IH]; intros i; cbn; [discriminate|].
  destruct (String.eqb s name) eqn:E.
  - intros [= <-]. apply String.eqb_eq in E. subst name.
    rewrite Nat.sub_diag. split; [lia|reflexivity].
  - intros H. apply IH in H as [Hle Hn]. split; [lia|].
    replace (k - i)%nat with (S (k - S i))%nat by lia. exact Hn.
Qed.

Lemma find_name_None (s : string) (names : list string) (i : nat) :
  find_name s names i = None <-> ~ In s names.
Proof.
  revert i. induction names as [|name rest IH]; intros i; cbn.
  - tauto.
  - destruct (String.eqb s name) eqn:E.
    + apply String.eqb_eq in E. split; [discriminate|]. intros H. destruct H. auto.
    + apply String.eqb_neq in E. rewrite IH. split.
      * intros H [Heq|Hin]; [congruence|auto].
      * intros H Hin. apply H. auto.
Qed.

End Planet.

(** ** Index and name, time, and what the validation lets through *)

Section GetPos.

Context (libm : Libm) (fuel : nat).

(** C5.  For each of the eight indices and the name at that place of
    [planet_names], the call with the index and the call with the name are
    the same call: same array, same error, for every time, every options
    value and every amount of fuel. *)
Theorem getPos_index_name (i : nat) (name : string) (t : float) (options : value) :
  nth_error planet_names i = Some name ->
  getPos libm fuel (VNumber (of_Z (Z.of_nat i))) t options =
    getPos libm fuel (VString name) t options.
Proof.
  intros H. apply resolvePlanet_index_name in H as [Hi Hn].
  unfold getPos. rewrite Hi, Hn. reflexivity.
Qed.

(** C8.  Once the options, the planet and its row are settled, the call is
    [orbit] at the centuries [T]: [(t - 2000) / 100] with the [unix_time]
    toggle off, and with it on [(MJD - 2451544.5) / 36525] for
    [MJD = (t * 1000) / 86400000 + 2440587.5], which is
    [getJulianFromUnix (t * 1000)]. *)
Theorem getPos_centuries (planet : value) (t : float) (options : value)
    (tg : toggles) (planet_idx : float) (row : list float) :
  readOptions options = Normal tg ->
  resolvePlanet planet = Normal planet_idx ->
  planet_row planet_idx = Normal row ->
  let MJD := (t * 1000) / 86400000 + 2440587.5 in
  let T := if unix_time tg then (MJD - 2451544.5) / 36525 else (t - 2000) / 100 in
  MJD = getJulianFromUnix (t * 1000) /\
  T = centuries (unix_time tg) t /\
  getPos libm fuel planet t options = orbit libm fuel tg row T.
Proof.
  intros Ho Hp Hr MJD T.
  split; [reflexivity|]. split.
  - subst T MJD. destruct (unix_time tg); reflexivity.
  - unfold getPos. rewrite Ho, Hp. cbn [mbind completion_bind].
    unfold locate. rewrite Hr. cbn [mbind completion_bind].
    subst T MJD. destruct (unix_time tg); reflexivity.
Qed.

(** C10.  NaN passes both tests of the validation, so none of the three
    errors is raised for it; [parameters[NaN]] is then [undefined], and the
    call ends in the [TypeError] of reading its element. *)
Theorem getPos_NaN (t : float) (options : value) :
  (0.0001 <? abs (Math_round nan - nan)) = false /\
  ((Math_round nan <? 0) || (8 <=? Math_round nan)) = false /\
  resolvePlanet (VNumber nan) = Normal nan /\
  array_get parameters nan = None /\
  getPos libm fuel (VNumber nan) t options = Throw TypeError.
Proof.
  repeat split; try reflexivity.
  unfold getPos.
  destruct (readOptions_cases options) as [-> | [tg ->]]; reflexivity.
Qed.

End GetPos.

(** A run of [getPos_index_name]: index 4 and "jupiter". *)
Lemma getPos_index_name_witness :
  nth_error planet_names 4 = Some "jupiter"%string /\
  getPos poly_libm 50 (VNumber 4) 2017.101 options_icrf_circular =
    getPos poly_libm 50 (VString "jupiter") 2017.101 options_icrf_circular.
Proof.
  split; [reflexivity|].
  apply (getPos_index_name poly_libm 50 4 "jupiter" 2017.101 options_icrf_circular).
  reflexivity.
Defined.

(** A run of [getPos_centuries]: Mercury at 2000.7 without options, where
    [T] is seven thousandths of a century. *)
Lemma getPos_centuries_witness :
  readOptions VUndefined = Normal all_off /\
  resolvePlanet (VNumber 0) = Normal 0 /\
  planet_row 0 = Normal (nth 0 parameters []) /\
  getPos poly_libm 50 (VNumber 0) 2000.7 VUndefined =
    orbit poly_libm 50 all_off (nth 0 parameters []) ((2000.7 - 2000) / 100).
Proof.
  split; [reflexivity|]. split; [reflexivity|]. split; [reflexivity|].
  apply (getPos_centuries poly_libm 50 (VNumber 0) 2000.7 VUndefined all_off 0
           (nth 0 parameters [])); reflexivity.
Defined.
